(** * remove-bg-api: the background-removal endpoint

    A shallow embedding of [remover/views.py] (class [RemoveBackgroundView])
    and of the properties its specification states about it.

    The view is Python code with three kinds of effects: it raises and
    catches exceptions, it calls collaborators that live outside the
    repository (Pillow's [Image.open] and [Image.save], rembg's [remove]),
    and those collaborators may touch the file system.  The embedding keeps
    all three: a state-and-exception monad [M] over a [World] that holds the
    persistent storage and the list of collaborator calls made so far. *)

From stdpp Require Import gmap strings list fin_maps.
From Stdlib.Strings Require Import Byte.

Abbreviation bytes := (list byte).

(** ** Python exceptions

    [exn] stands for a raised object: its class and the text [str(e)].
    Only the classes the code tells apart are constructors of their own.
    [UnidentifiedImageError] is Pillow's; [KeyError] is what a failed dict
    subscript raises; [APIException] stands for the exceptions of
    [rest_framework.exceptions], which carry a status code;
    [OtherException] is any other subclass of [Exception]; [NonException]
    is a raisable outside [Exception], such as [KeyboardInterrupt] or
    [SystemExit]. *)

Inductive exn_class :=
| UnidentifiedImageError
| KeyError
| APIException (status : nat) (cls : string)
| OtherException (cls : string)
| NonException (cls : string).

Record exn := Exn { exn_cls : exn_class; exn_str : string }.

(** [isinstance(e, UnidentifiedImageError)] *)
Definition is_UnidentifiedImageError (e : exn) : bool :=
  match exn_cls e with
  | UnidentifiedImageError => true
  | _ => false
  end.

(** [isinstance(e, Exception)] *)
Definition is_Exception (e : exn) : bool :=
  match exn_cls e with
  | NonException _ => false
  | _ => true
  end.

Inductive result (A : Type) :=
| Ok (a : A)
| Raise (e : exn).
Arguments Ok {A} a.
Arguments Raise {A} e.

(** ** Requests and responses *)

(** An uploaded file: the declared name and content type, and the bytes. *)
Record UploadedFile := {
  file_name : string;
  file_content_type : string;
  file_content : bytes
}.

(** [image_file.size] *)
Definition file_size (f : UploadedFile) : nat := length (file_content f).

(** [request.method] is a string. *)
Definition GET : string := "GET".
Definition POST : string := "POST".
Definition PUT : string := "PUT".
Definition OPTIONS : string := "OPTIONS".

(** [str.lower], on the ASCII letters a method name is made of. *)
Definition ascii_lower (c : Ascii.ascii) : Ascii.ascii :=
  let n := Ascii.nat_of_ascii c in
  if Nat.leb 65 n && Nat.leb n 90 then Ascii.ascii_of_nat (n + 32) else c.

Fixpoint lower (s : string) : string :=
  match s with
  | EmptyString => EmptyString
  | String c s' => String (ascii_lower c) (lower s')
  end.

(** [request.method], and what evaluating [request.data] gives: the parsed
    multipart form, or the exception of the parser (the property parses on
    first access and raises when the body cannot be parsed). *)
Record Request := {
  method : string;
  data : result (gmap string UploadedFile)
}.

(** The values that occur in the dicts the view answers with. *)
Inductive value :=
| VStr (s : string)
| VList (l : list string).

Inductive Body :=
| Content (b : bytes)
| Data (d : gmap string value).

Record HttpResponse := {
  status_code : nat;
  content_type : option string;
  body : Body
}.

Definition HTTP_200_OK : nat := 200.
Definition HTTP_400_BAD_REQUEST : nat := 400.
Definition HTTP_500_INTERNAL_SERVER_ERROR : nat := 500.

(** [django.http.HttpResponse(content, content_type=...)]: status 200 unless
    told otherwise, the content kept as the bytes it was given. *)
Definition mkHttpResponse (content : bytes) (ctype : string) : HttpResponse :=
  {| status_code := HTTP_200_OK; content_type := Some ctype; body := Content content |}.

(** [rest_framework.response.Response(data, status=...)]: the content type
    is chosen when the response is rendered, so none is fixed here. *)
Definition Response (d : gmap string value) (status : nat) : HttpResponse :=
  {| status_code := status; content_type := None; body := Data d |}.

(** What [ImageUploadSerializer(data=...)] exposes to the view. *)
Record Serializer := {
  is_valid : bool;
  validated_data : gmap string UploadedFile;
  errors : gmap string value
}.

(** ** In-memory buffers: [io.BytesIO] *)

Definition BytesIO := bytes.
Definition BytesIO_new : BytesIO := [].
Definition BytesIO_write (buf : BytesIO) (b : bytes) : BytesIO := buf ++ b.
Definition getvalue (buf : BytesIO) : bytes := buf.

(** ** Persistent storage *)

Abbreviation FileSystem := (gmap string bytes).

(** ** The collaborators

    Pillow and rembg are not part of the repository.  They are the fields
    of an interface: each operation may return a value or raise, and each
    may read and change the file system.  [format] is the attribute
    [Image.format], which is [None] or a string. *)

Class Externals := {
  Image : Type;
  format : Image → option string;
  PIL_open : UploadedFile → FileSystem → result Image * FileSystem;
  PIL_save : Image → string → FileSystem → result bytes * FileSystem;
  rembg_remove : bytes → FileSystem → result bytes * FileSystem
}.

(** ** The framework

    [RemoveBackgroundView] is a subclass of [rest_framework.views.APIView],
    which is not part of the repository either.  What a request meets
    before a handler runs depends on the settings and on the headers of the
    request; it is a parameter: [initial] is the outcome of
    [APIView.initial] (content negotiation, versioning, authentication,
    permissions, throttling), and [metadata_class] is the metadata of the
    view under the configured metadata class, [None] when there is none. *)

Class Framework := {
  initial : Request → result unit;
  metadata_class : option (gmap string value)
}.

Section View.

Context {ext : Externals} {fw : Framework}.

(** The serializer class is imported from [remover/serializers.py]. *)
Variable ImageUploadSerializer : gmap string UploadedFile → Serializer.

(** ** The world and the monad *)

Inductive Call :=
| CallOpen (f : UploadedFile)
| CallSave (img : Image) (fmt : string)
| CallRemove (b : bytes).

Record World := {
  fs : FileSystem;
  calls : list Call
}.

Definition M (A : Type) : Type := World → result A * World.

Definition ret {A} (a : A) : M A := λ w, (Ok a, w).

Definition raise {A} (e : exn) : M A := λ w, (Raise e, w).

Definition bind {A B} (m : M A) (k : A → M B) : M B :=
  λ w, match m w with
       | (Ok a, w') => k a w'
       | (Raise e, w') => (Raise e, w')
       end.

(** [try: body except ... as e: handler e]; a handler that matches no
    clause raises [e] again. *)
Definition try_except {A} (body : M A) (handler : exn → M A) : M A :=
  λ w, match body w with
       | (Ok a, w') => (Ok a, w')
       | (Raise e, w') => handler e w'
       end.

(** An evaluation that returns or raises and touches nothing. *)
Definition eval {A} (r : result A) : M A := λ w, (r, w).

(** A call of a collaborator: it runs on the file system and is recorded. *)
Definition call {A} (c : Call) (op : FileSystem → result A * FileSystem) : M A :=
  λ w, let '(r, fs') := op (fs w) in
       (r, {| fs := fs'; calls := calls w ++ [c] |}).

Notation "x <- m ;; k" := (bind m (λ x, k))
  (at level 100, m at next level, right associativity).

(** [d[key]] on a dict; the text of a [KeyError] is the [repr] of the key. *)
Definition getitem {V} (d : gmap string V) (key : string) : M V :=
  match d !! key with
  | Some v => ret v
  | None => raise (Exn KeyError ("'" +:+ key +:+ "'"))
  end.

(** [Image.open(fp)] *)
Definition Image_open (fp : UploadedFile) : M Image :=
  call (CallOpen fp) (PIL_open fp).

(** [img.save(buf, format=fmt)]: the encoder's output goes to the buffer. *)
Definition Image_save (img : Image) (buf : BytesIO) (fmt : string) : M BytesIO :=
  written <- call (CallSave img fmt) (PIL_save img fmt) ;;
  ret (BytesIO_write buf written).

(** [remove(data)] *)
Definition remove (b : bytes) : M bytes :=
  call (CallRemove b) (rembg_remove b).

(** Python truthiness of [input_image.format]: [None] and the empty string
    are false. *)
Definition truthy (o : option string) : bool :=
  match o with
  | Some s => negb (String.eqb s EmptyString)
  | None => false
  end.

(** [input_image.format if input_image.format else "PNG"] *)
Definition image_format_of (input_image : Image) : string :=
  if truthy (format input_image) then default "PNG" (format input_image)
  else "PNG".

(** ** [RemoveBackgroundView.post] *)

(** The body of the [try] statement. *)
Definition post_try (image_file : UploadedFile) : M HttpResponse :=
  input_image <- Image_open image_file ;;
  let image_format := image_format_of input_image in
  let image_bytes := BytesIO_new in
  image_bytes <- Image_save input_image image_bytes image_format ;;
  let image_bytes := getvalue image_bytes in
  output_bytes <- remove image_bytes ;;
  ret (mkHttpResponse output_bytes "image/png").

(** The two [except] clauses, tried in order.  What is raised and is not an
    instance of [Exception] matches neither and goes on. *)
Definition post_except (e : exn) : M HttpResponse :=
  if is_UnidentifiedImageError e then
    ret (Response {[ "error" := VStr "The uploaded file is not a valid image." ]}
                  HTTP_400_BAD_REQUEST)
  else if is_Exception e then
    ret (Response (<[ "error" := VStr "Failed to process image." ]>
                   {[ "details" := VStr (exn_str e) ]})
                  HTTP_500_INTERNAL_SERVER_ERROR)
  else
    raise e.

Definition post (request : Request) : M HttpResponse :=
  request_data <- eval (data request) ;;
  let serializer := ImageUploadSerializer request_data in
  if is_valid serializer then
    image_file <- getitem (validated_data serializer) "image" ;;
    try_except (post_try image_file) post_except
  else
    ret (Response (errors serializer) HTTP_400_BAD_REQUEST).

(** ** The view class under [APIView.dispatch]

    [class RemoveBackgroundView(APIView)] defines [post] and nothing else.
    The request is answered by [APIView.dispatch], framework code: it runs
    [initial], picks the attribute named after the lower-cased method when
    that name is one of [http_method_names] and [http_method_not_allowed]
    otherwise, calls it, and hands an [Exception] raised on the way to
    [handle_exception].  The base class itself defines [options]. *)

(** The double quote character, for the message below. *)
Definition dquote : string :=
  String (Ascii.Ascii false true false false false true false false) EmptyString.

Definition HTTP_405_METHOD_NOT_ALLOWED : nat := 405.

(** [APIView.http_method_not_allowed]: raises [MethodNotAllowed]. *)
Definition http_method_not_allowed (request : Request) : M HttpResponse :=
  raise (Exn (APIException HTTP_405_METHOD_NOT_ALLOWED "MethodNotAllowed")
             ("Method " +:+ dquote +:+ method request +:+ dquote +:+ " not allowed.")).

(** [APIView.options] *)
Definition options (request : Request) : M HttpResponse :=
  match metadata_class with
  | None => http_method_not_allowed request
  | Some metadata => ret (Response metadata HTTP_200_OK)
  end.

Definition http_method_names : list string :=
  ["get"; "post"; "put"; "patch"; "delete"; "head"; "options"; "trace"].

(** [getattr(self, name, self.http_method_not_allowed)] on an instance of
    [RemoveBackgroundView]: the class has [post], its bases have
    [options], and no other handler exists. *)
Definition getattr_handler (name : string) : Request → M HttpResponse :=
  if String.eqb name "post" then post
  else if String.eqb name "options" then options
  else http_method_not_allowed.

Definition handler_of (m : string) : Request → M HttpResponse :=
  if bool_decide (lower m ∈ http_method_names) then getattr_handler (lower m)
  else http_method_not_allowed.

(** [APIView.handle_exception] with the default exception handler: an API
    exception becomes a response with its status and its text as detail,
    anything else is raised again. *)
Definition handle_exception (e : exn) : M HttpResponse :=
  match exn_cls e with
  | APIException status _ => ret (Response {[ "detail" := VStr (exn_str e) ]} status)
  | _ => raise e
  end.

Definition dispatch (request : Request) : M HttpResponse :=
  try_except
    (_ <- eval (initial request) ;;
     handler_of (method request) request)
    (λ e, if is_Exception e then handle_exception e else raise e).

(** ** Vocabulary of the specification *)

(** The upload [f] passed validation: the payload parsed, the serializer
    accepted it and hands [f] over as its [image]. *)
Definition validated (request : Request) (f : UploadedFile) : Prop :=
  match data request with
  | Ok d =>
      is_valid (ImageUploadSerializer d) = true ∧
      validated_data (ImageUploadSerializer d) !! "image" = Some f
  | Raise _ => False
  end.

(** What a conforming serializer guarantees for its required field. *)
Definition serializer_wf : Prop :=
  ∀ d, is_valid (ImageUploadSerializer d) = true →
       is_Some (validated_data (ImageUploadSerializer d) !! "image").

(** The response to a request, if one is produced. *)
Definition response {A} (r : result A * World) : result A := r.1.

(** The calls of the collaborators a run adds to the record. *)
Definition made (w : World) (r : result HttpResponse * World) (l : list Call) : Prop :=
  calls r.2 = calls w ++ l.

(** The 500 answer of the second [except] clause. *)
Definition processing_error (e : exn) : HttpResponse :=
  Response (<[ "error" := VStr "Failed to process image." ]>
            {[ "details" := VStr (exn_str e) ]})
           HTTP_500_INTERNAL_SERVER_ERROR.

(** The 400 answer of the first [except] clause. *)
Definition invalid_image : HttpResponse :=
  Response {[ "error" := VStr "The uploaded file is not a valid image." ]}
           HTTP_400_BAD_REQUEST.

(** What the [except] clauses make of the exception [e]. *)
Definition except_result (e : exn) : result HttpResponse :=
  if is_UnidentifiedImageError e then Ok invalid_image
  else if is_Exception e then Ok (processing_error e)
  else Raise e.

(** What a recorded call did to the file system it ran on, and what a
    list of calls did, one after the other. *)
Definition effect (c : Call) (fs0 : FileSystem) : FileSystem :=
  match c with
  | CallOpen f => (PIL_open f fs0).2
  | CallSave img fmt => (PIL_save img fmt fs0).2
  | CallRemove b => (rembg_remove b fs0).2
  end.

Definition replay (l : list Call) (fs0 : FileSystem) : FileSystem :=
  foldl (λ s c, effect c s) fs0 l.

(** Two outcomes of the decoder that differ at most in the text of an
    [UnidentifiedImageError], which names the file object it was given. *)
Definition same_decoding (r1 r2 : result Image * FileSystem) : Prop :=
  r1 = r2 ∨
  ∃ e1 e2 fs', r1 = (Raise e1, fs') ∧ r2 = (Raise e2, fs') ∧
               is_UnidentifiedImageError e1 = true ∧
               is_UnidentifiedImageError e2 = true.

End View.

Arguments World : clear implicits.
Arguments Call : clear implicits.

(** ** The serializer *)

(** Modelled from the spec: the class [ImageUploadSerializer] of
    [remover/serializers.py], which the view imports and which is not among
    the sources.  Section 4.1 of the specification gives its contract: rule 1
    rejects a payload without an [image] field, rule 2 rejects an upload
    whose byte length exceeds a fixed maximum, both with an error keyed by
    the field name; otherwise the upload is handed over unchanged.  The
    maximum and the two messages are its configuration. *)
Definition ImageUploadSerializer (MAX_UPLOAD_SIZE : nat)
    (msg_required msg_too_large : string)
    (d : gmap string UploadedFile) : Serializer :=
  match d !! "image" with
  | None =>
      {| is_valid := false; validated_data := ∅;
         errors := {[ "image" := VList [msg_required] ]} |}
  | Some f =>
      if decide (MAX_UPLOAD_SIZE < file_size f) then
        {| is_valid := false; validated_data := ∅;
           errors := {[ "image" := VList [msg_too_large] ]} |}
      else
        {| is_valid := true; validated_data := {[ "image" := f ]};
           errors := ∅ |}
  end.

(** ** Stand-ins for the collaborators

    A small codec and a removal function with a fixed behaviour, in the
    manner of the mocks of [remover/tests/test_api.py]: an encoded image is
    the letter P followed by one pixel byte, and whatever follows the pixel
    is ignored by the decoder.  As with Pillow, the text of the decoder's
    [UnidentifiedImageError] names the file object it was given. *)

Module Mock.

Record image := { img_format : option string; img_pixel : byte }.

Definition unidentified_for (f : UploadedFile) : exn :=
  Exn UnidentifiedImageError
      ("cannot identify image file <" +:+ file_name f +:+ " ("
         +:+ file_content_type f +:+ ")>").

Definition open (f : UploadedFile) (fs : FileSystem) : result image * FileSystem :=
  match file_content f with
  | x50 :: px :: _ => (Ok {| img_format := Some "PNG"; img_pixel := px |}, fs)
  | _ => (Raise (unidentified_for f), fs)
  end.

Definition save (img : image) (fmt : string) (fs : FileSystem)
    : result bytes * FileSystem :=
  (Ok [x50; img_pixel img], fs).

(** [mock_remove.return_value] or [side_effect] *)
Definition remove_with (behaviour : result bytes) (b : bytes) (fs : FileSystem)
    : result bytes * FileSystem :=
  (behaviour, fs).

(** A removal function that stores its model file before it answers, as
    rembg does when the model is not yet on disk. *)
Definition download_then (behaviour : result bytes) (b : bytes) (fs : FileSystem)
    : result bytes * FileSystem :=
  (behaviour, <[ "u2net.onnx" := [x00] ]> fs).

Definition externals_with
    (rm : bytes → FileSystem → result bytes * FileSystem) : Externals :=
  {| Image := image; format := img_format;
     PIL_open := open; PIL_save := save;
     rembg_remove := rm |}.

Definition externals (behaviour : result bytes) : Externals :=
  externals_with (remove_with behaviour).

(** The framework with a fixed outcome of [initial]. *)
Definition framework (checks : result unit)
    (md : option (gmap string value)) : Framework :=
  {| initial := λ _, checks; metadata_class := md |}.

(** A serializer with a ceiling of four bytes. *)
Definition serializer : gmap string UploadedFile → Serializer :=
  ImageUploadSerializer 4 "No file was submitted." "The file is too large.".

Definition png_file : UploadedFile :=
  {| file_name := "test.png"; file_content_type := "image/png";
     file_content := [x50; xff] |}.

Definition padded_file : UploadedFile :=
  {| file_name := "padded.png"; file_content_type := "image/png";
     file_content := [x50; xff; x30] |}.

Definition text_file : UploadedFile :=
  {| file_name := "not_image.txt"; file_content_type := "image/png";
     file_content := [x6e; x6f] |}.

Definition plain_text_file : UploadedFile :=
  {| file_name := "not_image.txt"; file_content_type := "text/plain";
     file_content := [x6e; x6f] |}.

Definition big_file : UploadedFile :=
  {| file_name := "big.png"; file_content_type := "image/png";
     file_content := [x50; xff; x30; x30; x30] |}.

Definition upload (m : string) (f : UploadedFile) : Request :=
  {| method := m; data := Ok {[ "image" := f ]} |}.

Definition empty_request (m : string) : Request :=
  {| method := m; data := Ok ∅ |}.

Definition unsupported_media_type : exn :=
  Exn (APIException 415 "UnsupportedMediaType")
      ("Unsupported media type " +:+ dquote +:+ "text/plain" +:+ dquote
         +:+ " in request.").

(** A request whose body no parser accepts. *)
Definition unparsable_request (m : string) : Request :=
  {| method := m; data := Raise unsupported_media_type |}.

Definition empty_world (ext : Externals) : World ext :=
  {| fs := ∅; calls := [] |}.

Definition world0 (behaviour : result bytes) : World (externals behaviour) :=
  {| fs := ∅; calls := [] |}.

Definition transparent_png : bytes := [x50; x00].

Definition boom : exn := Exn (OtherException "Exception") "boom".

Definition unidentified : exn :=
  Exn UnidentifiedImageError "cannot identify image file".

Definition keyboard_interrupt : exn :=
  Exn (NonException "KeyboardInterrupt") EmptyString.

Definition not_acceptable : exn :=
  Exn (APIException 406 "NotAcceptable")
      "Could not satisfy the request Accept header.".

Definition metadata : gmap string value :=
  {[ "name" := VStr "Remove Background" ]}.

(** A serializer that claims validity and hands nothing over. *)
Definition careless_serializer (d : gmap string UploadedFile) : Serializer :=
  {| is_valid := true; validated_data := ∅; errors := ∅ |}.

End Mock.

(** ** Sentences of the specification, as they are worded

    Each is written down for a given set of collaborators and a given
    serializer. *)

Section Claims.

Context {ext : Externals} {fw : Framework}.
Variable serializer_class : gmap string UploadedFile → Serializer.

(** "Decode failures are the only failures classified as client errors;
    all other runtime failures are classified as server errors": once the
    upload has decoded, whatever error ends the processing gives a 500. *)
Definition only_decode_failures_are_client_errors : Prop :=
  ∀ req f img fs1 e w,
    validated serializer_class req f →
    PIL_open f (fs w) = (Ok img, fs1) →
    response (post_try f w) = Raise e →
    ∃ r, response (post serializer_class req w) = Ok r ∧
         status_code r = HTTP_500_INTERNAL_SERVER_ERROR.

(** "When the removal function raises any error, the response is 500 with
    [error] = Failed to process image. and [details] the error's text." *)
Definition removal_errors_are_server_errors : Prop :=
  ∀ req f img c e w fs1 fs2 fs3,
    validated serializer_class req f →
    PIL_open f (fs w) = (Ok img, fs1) →
    PIL_save img (image_format_of img) fs1 = (Ok c, fs2) →
    rembg_remove c fs2 = (Raise e, fs3) →
    response (post serializer_class req w) = Ok (processing_error e).

(** "Exactly one response is produced, its status is one of 200, 400, or
    500, and no exception propagates past the handler boundary." *)
Definition handler_is_total : Prop :=
  ∀ req w,
    ∃ r, response (post serializer_class req w) = Ok r ∧
         (status_code r = 200 ∨ status_code r = 400 ∨ status_code r = 500).

(** "The state of the file system is identical before and after the
    request." *)
Definition handler_leaves_storage : Prop :=
  ∀ req w, fs (post serializer_class req w).2 = fs w.

(** "GET (and other methods) must not be handled by this endpoint
    (405, or 404)." *)
Definition only_post_is_handled : Prop :=
  ∀ req w,
    method req ≠ POST →
    ∃ r, response (dispatch serializer_class req w) = Ok r ∧
         (status_code r = 405 ∨ status_code r = 404).

End Claims.

(** * Properties *)

Section Properties.

Context {ext : Externals}.
Variable ser : gmap string UploadedFile → Serializer.

Implicit Types (req : Request) (f : UploadedFile) (w : World ext) (e : exn).

(** ** How a run unfolds *)

(** A validated request reaches the [try] statement with its upload. *)
Lemma post_validated req f w :
  validated ser req f →
  post ser req w = try_except (post_try f) post_except w.
Proof.
  unfold validated, post, bind, eval, getitem.
  destruct (data req) as [d|e]; [|done].
  intros [Hvalid Hfile]. rewrite Hvalid, Hfile. reflexivity.
Qed.

(** A payload the serializer rejects is answered with its errors. *)
Lemma post_invalid req d w :
  data req = Ok d →
  is_valid (ser d) = false →
  post ser req w = (Ok (Response (errors (ser d)) 400), w).
Proof.
  intros Hdata Hinvalid. unfold post, bind, eval.
  rewrite Hdata, Hinvalid. reflexivity.
Qed.

(** A payload that does not parse ends the run at once. *)
Lemma post_unparsed req e w :
  data req = Raise e →
  post ser req w = (Raise e, w).
Proof. intros Hdata. unfold post, bind, eval. by rewrite Hdata. Qed.

Lemma post_try_open_raises f w e fs1 :
  PIL_open f (fs w) = (Raise e, fs1) →
  post_try f w = (Raise e, {| fs := fs1; calls := calls w ++ [CallOpen f] |}).
Proof.
  intros Hopen. unfold post_try, bind, Image_open, call.
  rewrite Hopen. reflexivity.
Qed.

Lemma post_try_save_raises f w img e fs1 fs2 :
  PIL_open f (fs w) = (Ok img, fs1) →
  PIL_save img (image_format_of img) fs1 = (Raise e, fs2) →
  post_try f w =
    (Raise e, {| fs := fs2;
                 calls := calls w ++ [CallOpen f; CallSave img (image_format_of img)] |}).
Proof.
  intros Hopen Hsave. unfold post_try, bind, Image_open, Image_save, bind, call.
  rewrite Hopen. simpl. rewrite Hsave. simpl.
  by rewrite <- app_assoc.
Qed.

Lemma post_try_remove f w img c r fs1 fs2 fs3 :
  PIL_open f (fs w) = (Ok img, fs1) →
  PIL_save img (image_format_of img) fs1 = (Ok c, fs2) →
  rembg_remove c fs2 = (r, fs3) →
  post_try f w =
    (match r with
     | Ok B => Ok (mkHttpResponse B "image/png")
     | Raise e => Raise e
     end,
     {| fs := fs3;
        calls := calls w ++ [CallOpen f; CallSave img (image_format_of img); CallRemove c] |}).
Proof.
  intros Hopen Hsave Hremove.
  unfold post_try, bind, Image_open, Image_save, remove, bind, call, ret.
  rewrite Hopen. simpl. rewrite Hsave. simpl.
  unfold getvalue, BytesIO_write, BytesIO_new. simpl.
  rewrite Hremove. simpl. rewrite <- !app_assoc. simpl.
  by destruct r.
Qed.

(** The [except] clauses answer or raise again, and touch nothing. *)
Lemma post_except_run e w : post_except e w = (except_result e, w).
Proof.
  unfold post_except, except_result.
  destruct (is_UnidentifiedImageError e); [done|].
  by destruct (is_Exception e).
Qed.

Lemma try_except_run f w :
  try_except (post_try f) post_except w =
    (match (post_try f w).1 with
     | Ok r => Ok r
     | Raise e => except_result e
     end, (post_try f w).2).
Proof.
  unfold try_except. destruct (post_try f w) as [[r|e] w']; [done|].
  by rewrite post_except_run.
Qed.

Lemma except_result_ok e r :
  except_result e = Ok r →
  is_Exception e = true ∧
  (is_UnidentifiedImageError e = true ∧ r = invalid_image ∨
   is_UnidentifiedImageError e = false ∧ r = processing_error e).
Proof.
  unfold except_result, is_UnidentifiedImageError, is_Exception.
  destruct (exn_cls e); intros [= <-]; split; auto.
Qed.

Lemma except_result_raise e e' :
  except_result e = Raise e' → e' = e ∧ is_Exception e = false.
Proof.
  unfold except_result, is_UnidentifiedImageError, is_Exception.
  destruct (exn_cls e); intros [= <-]; done.
Qed.

(** The three places at which the [try] body stops. *)
Lemma post_try_inv f w :
  (∃ e fs1,
     PIL_open f (fs w) = (Raise e, fs1) ∧
     post_try f w = (Raise e, {| fs := fs1; calls := calls w ++ [CallOpen f] |})) ∨
  (∃ img e fs1 fs2,
     PIL_open f (fs w) = (Ok img, fs1) ∧
     PIL_save img (image_format_of img) fs1 = (Raise e, fs2) ∧
     post_try f w =
       (Raise e, {| fs := fs2;
                    calls := calls w ++ [CallOpen f; CallSave img (image_format_of img)] |})) ∨
  (∃ img c r fs1 fs2 fs3,
     PIL_open f (fs w) = (Ok img, fs1) ∧
     PIL_save img (image_format_of img) fs1 = (Ok c, fs2) ∧
     rembg_remove c fs2 = (r, fs3) ∧
     post_try f w =
       (match r with
        | Ok B => Ok (mkHttpResponse B "image/png")
        | Raise e => Raise e
        end,
        {| fs := fs3;
           calls := calls w ++ [CallOpen f; CallSave img (image_format_of img);
                                CallRemove c] |})).
Proof.
  destruct (PIL_open f (fs w)) as [[img|e] fs1] eqn:Hopen.
  - destruct (PIL_save img (image_format_of img) fs1) as [[c|e] fs2] eqn:Hsave.
    + destruct (rembg_remove c fs2) as [r fs3] eqn:Hremove.
      right; right. exists img, c, r, fs1, fs2, fs3.
      repeat split; try done. by eapply post_try_remove.
    + right; left. exists img, e, fs1, fs2.
      repeat split; try done. by eapply post_try_save_raises.
  - left. exists e, fs1. split; [done|]. by apply post_try_open_raises.
Qed.

(** Every run of [post] is one of seven. *)
Lemma post_cases req w :
  (∃ e, data req = Raise e ∧ post ser req w = (Raise e, w)) ∨
  (∃ d, data req = Ok d ∧ is_valid (ser d) = false ∧
        post ser req w = (Ok (Response (errors (ser d)) 400), w)) ∨
  (∃ d, data req = Ok d ∧ is_valid (ser d) = true ∧
        validated_data (ser d) !! "image" = None ∧
        post ser req w = (Raise (Exn KeyError "'image'"), w)) ∨
  (∃ f e fs1,
     validated ser req f ∧
     PIL_open f (fs w) = (Raise e, fs1) ∧
     response (post_try f w) = Raise e ∧
     post ser req w =
       (except_result e,
        {| fs := fs1; calls := calls w ++ [CallOpen f] |})) ∨
  (∃ f img e fs1 fs2,
     validated ser req f ∧
     PIL_open f (fs w) = (Ok img, fs1) ∧
     PIL_save img (image_format_of img) fs1 = (Raise e, fs2) ∧
     response (post_try f w) = Raise e ∧
     post ser req w =
       (except_result e,
        {| fs := fs2;
           calls := calls w ++ [CallOpen f; CallSave img (image_format_of img)] |})) ∨
  (∃ f img c e fs1 fs2 fs3,
     validated ser req f ∧
     PIL_open f (fs w) = (Ok img, fs1) ∧
     PIL_save img (image_format_of img) fs1 = (Ok c, fs2) ∧
     rembg_remove c fs2 = (Raise e, fs3) ∧
     response (post_try f w) = Raise e ∧
     post ser req w =
       (except_result e,
        {| fs := fs3;
           calls := calls w ++ [CallOpen f; CallSave img (image_format_of img);
                                CallRemove c] |})) ∨
  (∃ f img c B fs1 fs2 fs3,
     validated ser req f ∧
     PIL_open f (fs w) = (Ok img, fs1) ∧
     PIL_save img (image_format_of img) fs1 = (Ok c, fs2) ∧
     rembg_remove c fs2 = (Ok B, fs3) ∧
     post ser req w =
       (Ok (mkHttpResponse B "image/png"),
        {| fs := fs3;
           calls := calls w ++ [CallOpen f; CallSave img (image_format_of img);
                                CallRemove c] |})).
Proof.
  destruct (data req) as [d|e0] eqn:Hdata;
    [|left; exists e0; split; [done | by apply post_unparsed]].
  destruct (is_valid (ser d)) eqn:Hvalid;
    [|right; left; exists d; split_and!; try done; by apply post_invalid].
  destruct (validated_data (ser d) !! "image") as [f|] eqn:Hfile.
  2:{ right; right; left. exists d. split_and!; try done.
      unfold post, bind, eval, getitem. by rewrite Hdata, Hvalid, Hfile. }
  assert (Hval : validated ser req f) by (unfold validated; by rewrite Hdata).
  right; right; right.
  rewrite (post_validated _ _ _ Hval), try_except_run. unfold response.
  destruct (post_try_inv f w)
    as [(e & fs1 & H1 & Hrun) |
        [(img & e & fs1 & fs2 & H1 & H2 & Hrun) |
         (img & c & r & fs1 & fs2 & fs3 & H1 & H2 & H3 & Hrun)]];
    rewrite Hrun; simpl.
  - left. exists f, e, fs1. split_and!; rewrite ?Hrun; done.
  - right; left. exists f, img, e, fs1, fs2. split_and!; rewrite ?Hrun; done.
  - destruct r as [B|e].
    + right; right; right. exists f, img, c, B, fs1, fs2, fs3.
      split_and!; rewrite ?Hrun; done.
    + right; right; left. exists f, img, c, e, fs1, fs2, fs3.
      split_and!; rewrite ?Hrun; done.
Qed.

(** The format handed to the encoder. *)
Lemma image_format_of_spec (img : Image) :
  image_format_of img ≠ EmptyString ∧
  (∀ s, format img = Some s → s ≠ EmptyString → image_format_of img = s) ∧
  (format img = None ∨ format img = Some EmptyString → image_format_of img = "PNG").
Proof.
  unfold image_format_of, truthy.
  destruct (format img) as [s|]; simpl.
  - destruct (String.eqb_spec s EmptyString) as [->|Hne]; simpl.
    + split_and!; [done | intros s [= <-]; done | done].
    + split_and!; [done | by intros s' [= <-] | ].
      intros [?|[= ->]]; done.
  - split_and!; done.
Qed.

(** Replaying calls that leave the file system alone leaves it alone. *)
Lemma replay_id (l : list (Call ext)) (fs0 : FileSystem) :
  (∀ c s, c ∈ l → effect c s = s) → replay l fs0 = fs0.
Proof.
  revert fs0. induction l as [|c l IH]; intros fs0 Hid; [done|].
  unfold replay in *. simpl. rewrite Hid by set_solver.
  apply IH. intros c' s Hin. apply Hid. set_solver.
Qed.

(** The outcome of the [try] body and of its handlers depends on the upload
    through what the decoder makes of it, the text of an
    [UnidentifiedImageError] apart. *)
Lemma try_except_same_decoding (f g : UploadedFile) w :
  same_decoding (PIL_open f (fs w)) (PIL_open g (fs w)) →
  response (try_except (post_try f) post_except w) =
  response (try_except (post_try g) post_except w).
Proof.
  intros [Hsame | (e1 & e2 & fs' & H1 & H2 & Hc1 & Hc2)].
  - unfold response, try_except, post_try, bind, Image_open, Image_save, remove,
      bind, call, ret.
    rewrite <- Hsame.
    destruct (PIL_open f (fs w)) as [[img|e] fs1]; simpl;
      [|by rewrite !post_except_run].
    destruct (PIL_save _ _ _) as [[c|e] fs2]; simpl;
      [|by rewrite !post_except_run].
    destruct (rembg_remove _ _) as [[B|e] fs3]; simpl;
      [done|by rewrite !post_except_run].
  - unfold response. rewrite !try_except_run.
    rewrite (post_try_open_raises _ _ _ _ H1), (post_try_open_raises _ _ _ _ H2).
    simpl. unfold except_result. by rewrite Hc1, Hc2.
Qed.

(** ** Success *)

(** C1.  For an upload that passed validation, decodes and re-encodes, when
    the removal function returns the bytes [B] the answer is status 200,
    content type image/png and body [B], the bytes as they were returned;
    this holds for every [B]. *)
Theorem success_returns_removal_output req f img c B w fs1 fs2 fs3 :
  validated ser req f →
  PIL_open f (fs w) = (Ok img, fs1) →
  PIL_save img (image_format_of img) fs1 = (Ok c, fs2) →
  rembg_remove c fs2 = (Ok B, fs3) →
  response (post ser req w) =
    Ok {| status_code := 200; content_type := Some "image/png"; body := Content B |}.
Proof.
  intros Hval Hopen Hsave Hremove.
  rewrite (post_validated _ _ _ Hval). unfold response, try_except.
  by rewrite (post_try_remove _ _ _ _ _ _ _ _ Hopen Hsave Hremove).
Qed.

(** ** Failures *)

(** A validated upload on which [Image.open] raises an
    [UnidentifiedImageError] is answered 400 with the one message that the
    file is not a valid image, and after the decode attempt no collaborator
    is called. *)
Lemma decode_failure_is_client_error req f w e fs1 :
  validated ser req f →
  PIL_open f (fs w) = (Raise e, fs1) →
  is_UnidentifiedImageError e = true →
  response (post ser req w) =
    Ok (Response {[ "error" := VStr "The uploaded file is not a valid image." ]} 400) ∧
  made w (post ser req w) [CallOpen f].
Proof.
  intros Hval Hopen Hcls. rewrite (post_validated _ _ _ Hval).
  unfold response, made. rewrite try_except_run.
  rewrite (post_try_open_raises _ _ _ _ Hopen). simpl.
  unfold except_result. by rewrite Hcls.
Qed.

(** ** The canonical bytes *)

(** C5.  For a validated upload that decodes to [img], the image is saved
    into a new buffer in its detected format, or in PNG when there is none,
    and the removal function is called once, with exactly the bytes [c] the
    encoder produced.  These depend on the upload through the decoded image
    only: an upload [f'] that decodes to the same image, such as [f]
    followed by data the decoder ignores, leads to the same call. *)
Theorem removal_receives_canonical_bytes req f img c w fs1 fs2 :
  validated ser req f →
  PIL_open f (fs w) = (Ok img, fs1) →
  PIL_save img (image_format_of img) fs1 = (Ok c, fs2) →
  (∀ s, format img = Some s → s ≠ EmptyString → image_format_of img = s) ∧
  (format img = None → image_format_of img = "PNG") ∧
  made w (post ser req w)
       [CallOpen f; CallSave img (image_format_of img); CallRemove c] ∧
  (∀ req' f',
     validated ser req' f' →
     PIL_open f' (fs w) = (Ok img, fs1) →
     made w (post ser req' w)
          [CallOpen f'; CallSave img (image_format_of img); CallRemove c]).
Proof.
  intros Hval Hopen Hsave.
  assert (Hcalls : ∀ req' f',
            validated ser req' f' →
            PIL_open f' (fs w) = (Ok img, fs1) →
            made w (post ser req' w)
                 [CallOpen f'; CallSave img (image_format_of img); CallRemove c]).
  { intros req' f' Hval' Hopen'.
    rewrite (post_validated _ _ _ Hval'). unfold made. rewrite try_except_run.
    destruct (rembg_remove c fs2) as [r fs3] eqn:Hremove.
    by rewrite (post_try_remove _ _ _ _ _ _ _ _ Hopen' Hsave Hremove). }
  destruct (image_format_of_spec img) as (_ & Hdetected & Hdefault).
  split_and!.
  - exact Hdetected.
  - intros Hfmt. apply Hdefault. by left.
  - by apply Hcalls.
  - apply Hcalls.
Qed.

(** ** What the collaborators are asked to do *)

(** X1.  In every run the handler calls the collaborators in one order and
    each at most once: nothing when the request does not pass validation;
    else the decoder on the upload; the encoder only when the decoder
    returned an image; the removal function only when the encoder returned
    bytes, and then on those bytes.  No step is tried again, whatever the
    outcome. *)
Theorem collaborator_calls_in_order req w :
  ∃ l, made w (post ser req w) l ∧
    ((l = [] ∧ ¬ ∃ f, validated ser req f) ∨
     (∃ f, validated ser req f ∧
        ((∃ e fs1, PIL_open f (fs w) = (Raise e, fs1) ∧ l = [CallOpen f]) ∨
         (∃ img e fs1 fs2,
            PIL_open f (fs w) = (Ok img, fs1) ∧
            PIL_save img (image_format_of img) fs1 = (Raise e, fs2) ∧
            l = [CallOpen f; CallSave img (image_format_of img)]) ∨
         (∃ img c fs1 fs2,
            PIL_open f (fs w) = (Ok img, fs1) ∧
            PIL_save img (image_format_of img) fs1 = (Ok c, fs2) ∧
            l = [CallOpen f; CallSave img (image_format_of img); CallRemove c])))).
Proof.
  unfold made.
  destruct (post_cases req w)
    as [(e0 & Hdata & ->) |
        [(d & Hdata & Hinv & ->) |
         [(d & Hdata & Hvalid & Hnone & ->) |
          [(f & e & fs1 & Hval & H1 & _ & ->) |
           [(f & img & e & fs1 & fs2 & Hval & H1 & H2 & _ & ->) |
            [(f & img & c & e & fs1 & fs2 & fs3 & Hval & H1 & H2 & H3 & _ & ->) |
             (f & img & c & B & fs1 & fs2 & fs3 & Hval & H1 & H2 & H3 & ->)]]]]]];
    simpl.
  - exists []. split; [by rewrite app_nil_r|]. left. split; [done|].
    intros [f Hval]. unfold validated in Hval. by rewrite Hdata in Hval.
  - exists []. split; [by rewrite app_nil_r|]. left. split; [done|].
    intros [f Hval]. unfold validated in Hval. rewrite Hdata in Hval.
    destruct Hval. congruence.
  - exists []. split; [by rewrite app_nil_r|]. left. split; [done|].
    intros [f Hval]. unfold validated in Hval. rewrite Hdata in Hval.
    destruct Hval. congruence.
  - eexists. split; [done|]. right. exists f. split; [done|].
    left. by exists e, fs1.
  - eexists. split; [done|]. right. exists f. split; [done|].
    right; left. by exists img, e, fs1, fs2.
  - eexists. split; [done|]. right. exists f. split; [done|].
    right; right. by exists img, c, fs1, fs2.
  - eexists. split; [done|]. right. exists f. split; [done|].
    right; right. by exists img, c, fs1, fs2.
Qed.

(** The calls a run makes, read off its seven cases. *)
Lemma post_calls req w l :
  made w (post ser req w) l →
  l = [] ∨
  (∃ f, l = [CallOpen f]) ∨
  (∃ f img fs1,
     PIL_open f (fs w) = (Ok img, fs1) ∧
     (l = [CallOpen f; CallSave img (image_format_of img)] ∨
      ∃ c fs2, PIL_save img (image_format_of img) fs1 = (Ok c, fs2) ∧
               l = [CallOpen f; CallSave img (image_format_of img); CallRemove c])).
Proof.
  unfold made. intros Hmade.
  assert (Hl : ∀ l', calls (post ser req w).2 = calls w ++ l' → l = l').
  { intros l' Hl'. rewrite Hl' in Hmade. by apply app_inv_head in Hmade. }
  destruct (post_cases req w)
    as [(e0 & _ & Hrun) |
        [(d & _ & _ & Hrun) |
         [(d & _ & _ & _ & Hrun) |
          [(f & e & fs1 & _ & H1 & _ & Hrun) |
           [(f & img & e & fs1 & fs2 & _ & H1 & H2 & _ & Hrun) |
            [(f & img & c & e & fs1 & fs2 & fs3 & _ & H1 & H2 & H3 & _ & Hrun) |
             (f & img & c & B & fs1 & fs2 & fs3 & _ & H1 & H2 & H3 & Hrun)]]]]]];
    rewrite Hrun in Hl; simpl in Hl.
  - left. apply Hl. by rewrite app_nil_r.
  - left. apply Hl. by rewrite app_nil_r.
  - left. apply Hl. by rewrite app_nil_r.
  - right; left. exists f. by apply Hl.
  - right; right. exists f, img, fs1. split; [done|]. left. by apply Hl.
  - right; right. exists f, img, fs1. split; [done|]. right.
    exists c, fs2. split; [done|]. by apply Hl.
  - right; right. exists f, img, fs1. split; [done|]. right.
    exists c, fs2. split; [done|]. by apply Hl.
Qed.

(** X2.  Whenever a run of the handler calls the encoder, the format it
    names is the [format] attribute of the decoded image when that is a
    non-empty string, and PNG when the attribute is [None] or empty; it is
    never the empty string. *)
Theorem save_format_never_empty req w l (img : Image) (fmt : string) :
  made w (post ser req w) l →
  CallSave img fmt ∈ l →
  fmt ≠ EmptyString ∧
  (∀ s, format img = Some s → s ≠ EmptyString → fmt = s) ∧
  (format img = None ∨ format img = Some EmptyString → fmt = "PNG").
Proof.
  intros Hmade Hin.
  destruct (post_calls req w l Hmade)
    as [-> | [(f & ->) | (f & img' & fs1 & _ & [-> | (c & fs2 & _ & ->)])]];
    set_unfold.
  - done.
  - destruct Hin as [Hin | []]. discriminate Hin.
  - destruct Hin as [Hin | [Hin | []]]; [done|].
    injection Hin as -> ->. apply image_format_of_spec.
  - destruct Hin as [Hin | [Hin | [Hin | []]]]; [done | | done].
    injection Hin as -> ->. apply image_format_of_spec.
Qed.

(** ** What leaves the handler, and what a status means *)

(** X3.  A run of [post] ends in an exception in exactly three situations:
    evaluating [request.data] raised it (the payload did not parse); the
    subscript [validated_data["image"]], which stands before the [try]
    statement, raised a [KeyError] because the serializer reported validity
    and has no [image]; or the [try] body raised something that is not an
    instance of [Exception].  An [Exception] raised by the decoder, the
    encoder or the removal function never leaves the handler. *)
Theorem escaping_exceptions req w e :
  response (post ser req w) = Raise e ↔
  data req = Raise e ∨
  (∃ d, data req = Ok d ∧ is_valid (ser d) = true ∧
        validated_data (ser d) !! "image" = None ∧
        e = Exn KeyError "'image'") ∨
  (∃ f, validated ser req f ∧
        response (post_try f w) = Raise e ∧
        is_Exception e = false).
Proof.
  unfold response. split.
  - destruct (post_cases req w)
      as [(e0 & Hdata & ->) |
          [(d & Hdata & Hinv & ->) |
           [(d & Hdata & Hvalid & Hnone & ->) |
            [(f & e' & fs1 & Hval & _ & Hraise & ->) |
             [(f & img & e' & fs1 & fs2 & Hval & _ & _ & Hraise & ->) |
              [(f & img & c & e' & fs1 & fs2 & fs3 & Hval & _ & _ & _ & Hraise & ->) |
               (f & img & c & B & fs1 & fs2 & fs3 & Hval & _ & _ & _ & ->)]]]]]];
      simpl; intros Hr; try discriminate.
    + injection Hr as <-. by left.
    + injection Hr as <-. right; left. by exists d.
    + apply except_result_raise in Hr as [-> Hcls]. right; right. by exists f.
    + apply except_result_raise in Hr as [-> Hcls]. right; right. by exists f.
    + apply except_result_raise in Hr as [-> Hcls]. right; right. by exists f.
  - intros [Hdata | [(d & Hdata & Hvalid & Hnone & ->) | (f & Hval & Hraise & Hcls)]].
    + by rewrite (post_unparsed req e w Hdata).
    + unfold post, bind, eval, getitem. by rewrite Hdata, Hvalid, Hnone.
    + rewrite (post_validated _ _ _ Hval), try_except_run. simpl.
      unfold response in Hraise. rewrite Hraise.
      unfold except_result, is_UnidentifiedImageError, is_Exception in *.
      by destruct (exn_cls e).
Qed.

(** X4.  A response with status 200 is only ever the one built from the
    output of the removal function: the upload passed validation, the
    decoder returned an image, the encoder returned bytes, the removal
    function returned [B] on them, and the response is [B] as image/png. *)
Theorem status_200_only_with_removal_output req w r :
  response (post ser req w) = Ok r →
  status_code r = 200 →
  ∃ f img c B fs1 fs2 fs3,
    validated ser req f ∧
    PIL_open f (fs w) = (Ok img, fs1) ∧
    PIL_save img (image_format_of img) fs1 = (Ok c, fs2) ∧
    rembg_remove c fs2 = (Ok B, fs3) ∧
    r = {| status_code := 200; content_type := Some "image/png"; body := Content B |}.
Proof.
  unfold response. intros Hr Hstatus.
  destruct (post_cases req w)
    as [(e0 & _ & Hrun) |
        [(d & _ & _ & Hrun) |
         [(d & _ & _ & _ & Hrun) |
          [(f & e & fs1 & _ & _ & _ & Hrun) |
           [(f & img & e & fs1 & fs2 & _ & _ & _ & _ & Hrun) |
            [(f & img & c & e & fs1 & fs2 & fs3 & _ & _ & _ & _ & _ & Hrun) |
             (f & img & c & B & fs1 & fs2 & fs3 & Hval & H1 & H2 & H3 & Hrun)]]]]]];
    rewrite Hrun in Hr; simpl in Hr; try discriminate;
    try (apply except_result_ok in Hr as [_ [[_ ->] | [_ ->]]]; discriminate);
    injection Hr as <-; try discriminate.
  by exists f, img, c, B, fs1, fs2, fs3.
Qed.

(** X5.  A response with status 500 is only ever the answer to an exception
    that ended the [try] body and is not an [UnidentifiedImageError]; its
    body is the fixed message with the text of that exception as details.
    Validation never gives a 500. *)
Theorem status_500_only_from_exception req w r :
  response (post ser req w) = Ok r →
  status_code r = 500 →
  ∃ f e,
    validated ser req f ∧
    response (post_try f w) = Raise e ∧
    is_UnidentifiedImageError e = false ∧
    r = Response (<[ "error" := VStr "Failed to process image." ]>
                  {[ "details" := VStr (exn_str e) ]}) 500.
Proof.
  unfold response. intros Hr Hstatus.
  destruct (post_cases req w)
    as [(e0 & _ & Hrun) |
        [(d & _ & _ & Hrun) |
         [(d & _ & _ & _ & Hrun) |
          [(f & e & fs1 & Hval & _ & Hraise & Hrun) |
           [(f & img & e & fs1 & fs2 & Hval & _ & _ & Hraise & Hrun) |
            [(f & img & c & e & fs1 & fs2 & fs3 & Hval & _ & _ & _ & Hraise & Hrun) |
             (f & img & c & B & fs1 & fs2 & fs3 & _ & _ & _ & _ & Hrun)]]]]]];
    rewrite Hrun in Hr; simpl in Hr; try discriminate;
    try (injection Hr as <-; discriminate);
    apply except_result_ok in Hr as [_ [[_ ->] | [Hcls ->]]]; try discriminate;
    by exists f, e.
Qed.

(** X6.  A response with status 400 has one of two causes, and its body
    tells them apart: the serializer rejected the payload, and the body is
    the serializer's errors; or an [UnidentifiedImageError] ended the [try]
    body, and the body is the fixed message that the file is not a valid
    image, without the text of the exception. *)
Theorem status_400_causes req w r :
  response (post ser req w) = Ok r →
  status_code r = 400 →
  (∃ d, data req = Ok d ∧ is_valid (ser d) = false ∧
        r = Response (errors (ser d)) 400) ∨
  (∃ f e,
     validated ser req f ∧
     response (post_try f w) = Raise e ∧
     is_UnidentifiedImageError e = true ∧
     r = Response {[ "error" := VStr "The uploaded file is not a valid image." ]} 400).
Proof.
  unfold response. intros Hr Hstatus.
  destruct (post_cases req w)
    as [(e0 & _ & Hrun) |
        [(d & Hdata & Hinv & Hrun) |
         [(d & _ & _ & _ & Hrun) |
          [(f & e & fs1 & Hval & _ & Hraise & Hrun) |
           [(f & img & e & fs1 & fs2 & Hval & _ & _ & Hraise & Hrun) |
            [(f & img & c & e & fs1 & fs2 & fs3 & Hval & _ & _ & _ & Hraise & Hrun) |
             (f & img & c & B & fs1 & fs2 & fs3 & _ & _ & _ & _ & Hrun)]]]]]];
    rewrite Hrun in Hr; simpl in Hr; try discriminate.
  - injection Hr as <-. left. by exists d.
  - apply except_result_ok in Hr as [_ [[Hcls ->] | [_ ->]]]; [|discriminate].
    right. by exists f, e.
  - apply except_result_ok in Hr as [_ [[Hcls ->] | [_ ->]]]; [|discriminate].
    right. by exists f, e.
  - apply except_result_ok in Hr as [_ [[Hcls ->] | [_ ->]]]; [|discriminate].
    right. by exists f, e.
  - injection Hr as <-. discriminate.
Qed.

(** X9.  The response depends on a validated upload only through what the
    decoder makes of it: two validated uploads on which [Image.open] gives
    the same result, be it the same image or the same exception, get the
    same response.  Bytes the decoder does not look at cannot change the
    answer. *)
Theorem response_depends_on_decoded_image
    (req req' : Request) (f f' : UploadedFile) (w : World ext) :
  validated ser req f →
  validated ser req' f' →
  PIL_open f (fs w) = PIL_open f' (fs w) →
  response (post ser req w) = response (post ser req' w).
Proof.
  intros Hval Hval' Hsame.
  rewrite (post_validated _ _ _ Hval), (post_validated _ _ _ Hval').
  apply try_except_same_decoding. by left.
Qed.

(** ** Persistent storage *)


End Properties.

(** ** Method dispatch *)

Section Dispatch.

Context {ext : Externals} {fw : Framework}.
Variable ser : gmap string UploadedFile → Serializer.

(** No handler exists for a name other than [post] and [options]. *)
Lemma handler_of_other (m : string) :
  lower m ≠ "post" → lower m ≠ "options" →
  handler_of ser m = http_method_not_allowed.
Proof.
  intros Hpost Hoptions. unfold handler_of, getattr_handler.
  destruct (bool_decide _); [|done].
  destruct (String.eqb_spec (lower m) "post"); [done|].
  by destruct (String.eqb_spec (lower m) "options").
Qed.

Lemma handler_of_options (m : string) :
  lower m = "options" → handler_of ser m = options.
Proof. intros Hm. unfold handler_of. by rewrite Hm. Qed.


End Dispatch.

(** ** Validation *)

Section Validation.

Context {ext : Externals}.
Variables (MAX_UPLOAD_SIZE : nat) (msg_required msg_too_large : string).

Abbreviation serializer :=
  (ImageUploadSerializer MAX_UPLOAD_SIZE msg_required msg_too_large).

(** The serializer accepts exactly the payloads whose [image] is within the
    ceiling, and hands that upload over as it came. *)
Lemma ImageUploadSerializer_validated (req : Request) (f : UploadedFile) :
  validated serializer req f ↔
  ∃ d, data req = Ok d ∧ d !! "image" = Some f ∧ file_size f ≤ MAX_UPLOAD_SIZE.
Proof.
  unfold validated, ImageUploadSerializer.
  destruct (data req) as [d|e]; [|split; [done | intros (? & ? & _); done]].
  destruct (d !! "image") as [g|] eqn:Hg; simpl.
  - destruct (decide (MAX_UPLOAD_SIZE < file_size g)); simpl.
    + split; [intros [? _]; done|].
      intros (d' & [= <-] & Hf & ?). rewrite Hg in Hf. injection Hf as ->. lia.
    + rewrite lookup_singleton_eq. split.
      * intros [_ [= ->]]. exists d. split_and!; [done | done | lia].
      * intros (d' & [= <-] & Hf & _). rewrite Hg in Hf. by injection Hf as ->.
  - split; [intros [? _]; done|].
    intros (d' & [= <-] & Hf & _). by rewrite Hg in Hf.
Qed.

Lemma ImageUploadSerializer_wf : serializer_wf serializer.
Proof.
  intros d. unfold ImageUploadSerializer.
  destruct (d !! "image") as [g|]; simpl; [|done].
  destruct (decide _); simpl; [done|].
  rewrite lookup_singleton_eq. eauto.
Qed.

(** C4.  A request without the [image] field, and a request whose upload is
    longer than the configured maximum, whatever its bytes are, is answered
    400 with an error keyed by the field name; the run makes no call at all,
    so the bytes are never decoded, and leaves the world as it was. *)
Theorem invalid_payload_is_rejected (req : Request)
    (d : gmap string UploadedFile) (w : World ext) :
  data req = Ok d →
  (d !! "image" = None ∨
   ∃ f, d !! "image" = Some f ∧ MAX_UPLOAD_SIZE < file_size f) →
  ∃ msg, post serializer req w =
           (Ok {| status_code := 400; content_type := None;
                  body := Data {[ "image" := VList [msg] ]} |}, w).
Proof.
  intros Hdata [Hnone | (f & Hsome & Hbig)].
  - exists msg_required. rewrite (post_invalid _ _ _ _ Hdata);
      unfold ImageUploadSerializer; by rewrite Hnone.
  - exists msg_too_large. rewrite (post_invalid _ _ _ _ Hdata);
      unfold ImageUploadSerializer; rewrite Hsome;
      by destruct (decide _).
Qed.

(** C6.  The declared name and content type of the upload do not matter.
    When the decoder works on the bytes, so that two files with the same
    bytes decode alike, the text of an [UnidentifiedImageError] apart
    (it names the file it was given), two requests whose uploads carry the
    same bytes get the same response, whatever the names and content types
    say.  In particular, when the bytes of an upload are not an image, an
    upload of the same bytes declared as image/png is still answered 400. *)
Theorem declared_metadata_is_ignored
    (d d' : gmap string UploadedFile) (m m' : string)
    (f g : UploadedFile) (w : World ext) :
  (∀ f1 f2 fs0, file_content f1 = file_content f2 →
                same_decoding (PIL_open f1 fs0) (PIL_open f2 fs0)) →
  file_content f = file_content g →
  response (post serializer {| method := m; data := Ok (<[ "image" := f ]> d) |} w) =
  response (post serializer {| method := m'; data := Ok (<[ "image" := g ]> d') |} w) ∧
  (∀ e fs1,
     PIL_open f (fs w) = (Raise e, fs1) →
     is_UnidentifiedImageError e = true →
     ∃ r, response (post serializer
                      {| method := m'; data := Ok (<[ "image" := g ]> d') |} w) = Ok r ∧
          status_code r = 400).
Proof.
  intros Hbytes Hfg.
  assert (Hsize : file_size f = file_size g) by (unfold file_size; by rewrite Hfg).
  set (rf := {| method := m; data := Ok (<[ "image" := f ]> d) |}).
  set (rg := {| method := m'; data := Ok (<[ "image" := g ]> d') |}).
  assert (Hf : (<[ "image" := f ]> d) !! "image" = Some f) by apply lookup_insert_eq.
  assert (Hg : (<[ "image" := g ]> d') !! "image" = Some g) by apply lookup_insert_eq.
  destruct (decide (MAX_UPLOAD_SIZE < file_size f)) as [Hbig|Hfit].
  - assert (Hrf : post serializer rf w =
                  (Ok (Response {[ "image" := VList [msg_too_large] ]} 400), w)).
    { rewrite (post_invalid _ rf _ w eq_refl); unfold ImageUploadSerializer;
        rewrite Hf; by destruct (decide _). }
    assert (Hrg : post serializer rg w =
                  (Ok (Response {[ "image" := VList [msg_too_large] ]} 400), w)).
    { rewrite (post_invalid _ rg _ w eq_refl); unfold ImageUploadSerializer;
        rewrite Hg; destruct (decide _); try done; lia. }
    rewrite Hrf, Hrg. split; [done|]. intros _ _ _ _. eexists; split; done.
  - assert (Hvf : validated serializer rf f).
    { apply ImageUploadSerializer_validated. eexists; split_and!; [done | done | lia]. }
    assert (Hvg : validated serializer rg g).
    { apply ImageUploadSerializer_validated. eexists; split_and!; [done | done | lia]. }
    rewrite (post_validated _ _ _ _ Hvf), (post_validated _ _ _ _ Hvg).
    pose proof (Hbytes f g (fs w) Hfg) as Hsame.
    split; [by apply try_except_same_decoding|].
    intros e fs1 Hopen Hcls.
    unfold response. rewrite try_except_run.
    destruct Hsame as [Hsame | (e1 & e2 & fs' & H1 & H2 & Hc1 & Hc2)].
    + rewrite Hsame in Hopen.
      rewrite (post_try_open_raises _ _ _ _ Hopen). simpl.
      unfold except_result. rewrite Hcls. eexists; split; done.
    + rewrite (post_try_open_raises _ _ _ _ H2). simpl.
      unfold except_result. rewrite Hc2. eexists; split; done.
Qed.

(** ** Totality *)

(** C7, amended.  When the payload parses and what the collaborators raise
    in the run is an instance of [Exception], the handler answers the
    request, whatever the payload holds and whatever the collaborators
    return or raise: the run ends in one response, never in an exception,
    and the status of the response is 200, 400 or 500. *)
Theorem post_total (req : Request) (d : gmap string UploadedFile) (w : World ext) :
  data req = Ok d →
  (∀ f e, d !! "image" = Some f →
          response (post_try f w) = Raise e → is_Exception e = true) →
  ∃ r, response (post serializer req w) = Ok r ∧
       (status_code r = 200 ∨ status_code r = 400 ∨ status_code r = 500).
Proof.
  intros Hdata Hexc. unfold response.
  assert (Hanswer : ∀ f e, validated serializer req f →
            response (post_try f w) = Raise e →
            ∃ r, except_result e = Ok r ∧ (status_code r = 400 ∨ status_code r = 500)).
  { intros f e Hval Hraise.
    apply ImageUploadSerializer_validated in Hval as (d' & Hd' & Hf & _).
    rewrite Hdata in Hd'. injection Hd' as <-.
    specialize (Hexc f e Hf Hraise).
    unfold except_result. rewrite Hexc.
    destruct (is_UnidentifiedImageError e); eexists; split; eauto. }
  destruct (post_cases serializer req w)
    as [(e0 & Hraise & _) |
        [(d' & _ & _ & ->) |
         [(d' & _ & Hvalid & Hnone & _) |
          [(f & e & fs1 & Hval & _ & Hraise & ->) |
           [(f & img & e & fs1 & fs2 & Hval & _ & _ & Hraise & ->) |
            [(f & img & c & e & fs1 & fs2 & fs3 & Hval & _ & _ & _ & Hraise & ->) |
             (f & img & c & B & fs1 & fs2 & fs3 & _ & _ & _ & _ & ->)]]]]]]; simpl.
  - congruence.
  - eexists; split; [done|]. auto.
  - destruct (ImageUploadSerializer_wf d' Hvalid) as [f Hf]. congruence.
  - destruct (Hanswer f e Hval Hraise) as (r & -> & Hr). exists r. split; [done|]. tauto.
  - destruct (Hanswer f e Hval Hraise) as (r & -> & Hr). exists r. split; [done|]. tauto.
  - destruct (Hanswer f e Hval Hraise) as (r & -> & Hr). exists r. split; [done|]. tauto.
  - eexists; split; [done|]. auto.
Qed.

End Validation.

(** * The properties at work on the stand-ins *)

(** The mocked removal returns a transparent image: 200 with those bytes. *)
Lemma success_returns_removal_output_witness :
  response (post (ext := Mock.externals (Ok Mock.transparent_png)) Mock.serializer
                 (Mock.upload POST Mock.png_file) (Mock.world0 _)) =
    Ok {| status_code := 200; content_type := Some "image/png";
          body := Content Mock.transparent_png |}.
Proof.
  apply (success_returns_removal_output (ext := Mock.externals (Ok Mock.transparent_png))
           Mock.serializer (Mock.upload POST Mock.png_file) Mock.png_file
           {| Mock.img_format := Some "PNG"; Mock.img_pixel := xff |}
           [x50; xff] Mock.transparent_png (Mock.world0 _) ∅ ∅ ∅).
  - split; vm_compute; reflexivity.
  - reflexivity.
  - reflexivity.
  - reflexivity.
Defined.

(** A request without the field, and an upload of five bytes against a
    ceiling of four whose first bytes are an image. *)
Lemma invalid_payload_is_rejected_witness :
  (∃ msg, post (ext := Mock.externals (Ok Mock.transparent_png)) Mock.serializer
               (Mock.empty_request POST) (Mock.world0 _) =
            (Ok {| status_code := 400; content_type := None;
                   body := Data {[ "image" := VList [msg] ]} |}, Mock.world0 _)) ∧
  (∃ msg, post (ext := Mock.externals (Ok Mock.transparent_png)) Mock.serializer
               (Mock.upload POST Mock.big_file) (Mock.world0 _) =
            (Ok {| status_code := 400; content_type := None;
                   body := Data {[ "image" := VList [msg] ]} |}, Mock.world0 _)).
Proof.
  split.
  - apply (invalid_payload_is_rejected (ext := Mock.externals (Ok Mock.transparent_png))
             4 "No file was submitted." "The file is too large."
             (Mock.empty_request POST) ∅ (Mock.world0 _)).
    + reflexivity.
    + left. reflexivity.
  - apply (invalid_payload_is_rejected (ext := Mock.externals (Ok Mock.transparent_png))
             4 "No file was submitted." "The file is too large."
             (Mock.upload POST Mock.big_file) {[ "image" := Mock.big_file ]}
             (Mock.world0 _)).
    + reflexivity.
    + right. exists Mock.big_file. split; [vm_compute; reflexivity | vm_compute; lia].
Defined.

(** An image followed by a byte the decoder ignores: the removal function
    gets the two canonical bytes, as it does for the image alone. *)
Lemma removal_receives_canonical_bytes_witness :
  made (Mock.world0 _)
       (post (ext := Mock.externals (Ok Mock.transparent_png)) Mock.serializer
             (Mock.upload POST Mock.padded_file) (Mock.world0 _))
       [@CallOpen (Mock.externals (Ok Mock.transparent_png)) Mock.padded_file;
        @CallSave (Mock.externals (Ok Mock.transparent_png))
          {| Mock.img_format := Some "PNG"; Mock.img_pixel := xff |} "PNG";
        @CallRemove (Mock.externals (Ok Mock.transparent_png)) [x50; xff]].
Proof.
  refine (proj2 (proj2 (proj2
            (removal_receives_canonical_bytes
               (ext := Mock.externals (Ok Mock.transparent_png))
               Mock.serializer (Mock.upload POST Mock.png_file) Mock.png_file
               {| Mock.img_format := Some "PNG"; Mock.img_pixel := xff |}
               [x50; xff] (Mock.world0 _) ∅ ∅ _ _ _)))
            (Mock.upload POST Mock.padded_file) Mock.padded_file _ _).
  - split; vm_compute; reflexivity.
  - reflexivity.
  - reflexivity.
  - split; vm_compute; reflexivity.
  - reflexivity.
Defined.

(** The same bytes declared as text/plain and as image/png: the decoder's
    two errors name two different files, the two responses are one. *)
Lemma declared_metadata_is_ignored_witness :
  response (post (ext := Mock.externals (Ok Mock.transparent_png)) Mock.serializer
                 {| method := POST;
                    data := Ok (<[ "image" := Mock.plain_text_file ]> ∅) |}
                 (Mock.world0 _)) =
  response (post (ext := Mock.externals (Ok Mock.transparent_png)) Mock.serializer
                 {| method := POST; data := Ok (<[ "image" := Mock.text_file ]> ∅) |}
                 (Mock.world0 _)) ∧
  (∃ r, response (post (ext := Mock.externals (Ok Mock.transparent_png)) Mock.serializer
                       {| method := POST;
                          data := Ok (<[ "image" := Mock.text_file ]> ∅) |}
                       (Mock.world0 _)) = Ok r ∧
        status_code r = 400).
Proof.
  destruct (declared_metadata_is_ignored
              (ext := Mock.externals (Ok Mock.transparent_png))
              4 "No file was submitted." "The file is too large."
              ∅ ∅ POST POST Mock.plain_text_file Mock.text_file (Mock.world0 _))
    as [Hsame Hbad].
  - intros f1 f2 fs0 Hbytes. simpl. unfold Mock.open. rewrite Hbytes.
    destruct (file_content f2) as [|b [|px rest]].
    + right. exists (Mock.unidentified_for f1), (Mock.unidentified_for f2), fs0.
      split_and!; reflexivity.
    + destruct b; first [left; reflexivity |
        right; exists (Mock.unidentified_for f1), (Mock.unidentified_for f2), fs0;
        split_and!; reflexivity].
    + destruct b; first [left; reflexivity |
        right; exists (Mock.unidentified_for f1), (Mock.unidentified_for f2), fs0;
        split_and!; reflexivity].
  - reflexivity.
  - split; [exact Hsame|].
    apply (Hbad (Mock.unidentified_for Mock.plain_text_file) ∅); reflexivity.
Defined.

(** The removal raises boom on a parsed upload: one response, a 500. *)
Lemma post_total_witness :
  ∃ r, response (post (ext := Mock.externals (Raise Mock.boom)) Mock.serializer
                      (Mock.upload POST Mock.png_file) (Mock.world0 _)) = Ok r ∧
       (status_code r = 200 ∨ status_code r = 400 ∨ status_code r = 500).
Proof.
  apply (post_total (ext := Mock.externals (Raise Mock.boom))
           4 "No file was submitted." "The file is too large."
           (Mock.upload POST Mock.png_file) {[ "image" := Mock.png_file ]}
           (Mock.world0 _)).
  - reflexivity.
  - intros f e Hf Hraise.
    vm_compute in Hf. injection Hf as <-.
    vm_compute in Hraise. injection Hraise as <-. reflexivity.
Defined.



(** On a real image the encoder is asked for PNG, the detected format. *)
Lemma save_format_never_empty_witness :
  "PNG" ≠ EmptyString ∧
  (∀ s, format (Externals := Mock.externals (Ok Mock.transparent_png))
               {| Mock.img_format := Some "PNG"; Mock.img_pixel := xff |} = Some s →
        s ≠ EmptyString → "PNG" = s) ∧
  (format (Externals := Mock.externals (Ok Mock.transparent_png))
          {| Mock.img_format := Some "PNG"; Mock.img_pixel := xff |} = None ∨
   format (Externals := Mock.externals (Ok Mock.transparent_png))
          {| Mock.img_format := Some "PNG"; Mock.img_pixel := xff |} = Some EmptyString →
   "PNG" = "PNG").
Proof.
  apply (save_format_never_empty (ext := Mock.externals (Ok Mock.transparent_png))
           Mock.serializer (Mock.upload POST Mock.png_file) (Mock.world0 _)
           [@CallOpen (Mock.externals (Ok Mock.transparent_png)) Mock.png_file;
            @CallSave (Mock.externals (Ok Mock.transparent_png))
              {| Mock.img_format := Some "PNG"; Mock.img_pixel := xff |} "PNG";
            @CallRemove (Mock.externals (Ok Mock.transparent_png)) [x50; xff]]).
  - vm_compute. reflexivity.
  - set_unfold. right. left. reflexivity.
Defined.

(** The three ways out: a body no parser accepts, a serializer that hands
    nothing over, a keyboard interrupt during the removal. *)
Lemma escaping_exceptions_witness :
  response (post (ext := Mock.externals (Ok Mock.transparent_png)) Mock.serializer
                 (Mock.unparsable_request POST) (Mock.world0 _)) =
    Raise Mock.unsupported_media_type ∧
  response (post (ext := Mock.externals (Ok Mock.transparent_png))
                 Mock.careless_serializer (Mock.upload POST Mock.png_file)
                 (Mock.world0 _)) =
    Raise (Exn KeyError "'image'") ∧
  response (post (ext := Mock.externals (Raise Mock.keyboard_interrupt)) Mock.serializer
                 (Mock.upload POST Mock.png_file) (Mock.world0 _)) =
    Raise Mock.keyboard_interrupt.
Proof.
  split_and!.
  - apply (proj2 (escaping_exceptions (ext := Mock.externals (Ok Mock.transparent_png))
                    Mock.serializer (Mock.unparsable_request POST)
                    (Mock.world0 _) Mock.unsupported_media_type)).
    left. reflexivity.
  - apply (proj2 (escaping_exceptions (ext := Mock.externals (Ok Mock.transparent_png))
                    Mock.careless_serializer (Mock.upload POST Mock.png_file)
                    (Mock.world0 _) (Exn KeyError "'image'"))).
    right; left. exists {[ "image" := Mock.png_file ]}.
    split_and!; [reflexivity | reflexivity | vm_compute; reflexivity | reflexivity].
  - apply (proj2 (escaping_exceptions (ext := Mock.externals (Raise Mock.keyboard_interrupt))
                    Mock.serializer (Mock.upload POST Mock.png_file)
                    (Mock.world0 _) Mock.keyboard_interrupt)).
    right; right. exists Mock.png_file.
    split_and!; [split; vm_compute; reflexivity | vm_compute; reflexivity | reflexivity].
Defined.

(** The 200 of the mocked removal carries the mock's bytes. *)
Lemma status_200_only_with_removal_output_witness :
  ∃ f img c B fs1 fs2 fs3,
    validated Mock.serializer (Mock.upload POST Mock.png_file) f ∧
    Mock.open f ∅ = (Ok img, fs1) ∧
    Mock.save img (image_format_of (ext := Mock.externals (Ok Mock.transparent_png)) img) fs1
      = (Ok c, fs2) ∧
    Mock.remove_with (Ok Mock.transparent_png) c fs2 = (Ok B, fs3) ∧
    mkHttpResponse Mock.transparent_png "image/png" =
      {| status_code := 200; content_type := Some "image/png"; body := Content B |}.
Proof.
  apply (status_200_only_with_removal_output
           (ext := Mock.externals (Ok Mock.transparent_png))
           Mock.serializer (Mock.upload POST Mock.png_file) (Mock.world0 _)
           (mkHttpResponse Mock.transparent_png "image/png")).
  - vm_compute. reflexivity.
  - reflexivity.
Defined.

(** The 500 of the removal that raises boom. *)
Lemma status_500_only_from_exception_witness :
  ∃ f e,
    validated Mock.serializer (Mock.upload POST Mock.png_file) f ∧
    response (post_try (ext := Mock.externals (Raise Mock.boom)) f (Mock.world0 _)) =
      Raise e ∧
    is_UnidentifiedImageError e = false ∧
    processing_error Mock.boom =
      Response (<[ "error" := VStr "Failed to process image." ]>
                {[ "details" := VStr (exn_str e) ]}) 500.
Proof.
  apply (status_500_only_from_exception (ext := Mock.externals (Raise Mock.boom))
           Mock.serializer (Mock.upload POST Mock.png_file) (Mock.world0 _)
           (processing_error Mock.boom)).
  - vm_compute. reflexivity.
  - reflexivity.
Defined.

(** The 400 of an oversized upload is the serializer's. *)
Lemma status_400_causes_witness :
  (∃ d, data (Mock.upload POST Mock.big_file) = Ok d ∧
        is_valid (Mock.serializer d) = false ∧
        Response {[ "image" := VList ["The file is too large."] ]} 400 =
          Response (errors (Mock.serializer d)) 400) ∨
  (∃ f e,
     validated Mock.serializer (Mock.upload POST Mock.big_file) f ∧
     response (post_try (ext := Mock.externals (Ok Mock.transparent_png)) f
                        (Mock.world0 _)) = Raise e ∧
     is_UnidentifiedImageError e = true ∧
     Response {[ "image" := VList ["The file is too large."] ]} 400 =
       Response {[ "error" := VStr "The uploaded file is not a valid image." ]} 400).
Proof.
  apply (status_400_causes (ext := Mock.externals (Ok Mock.transparent_png))
           Mock.serializer (Mock.upload POST Mock.big_file) (Mock.world0 _)
           (Response {[ "image" := VList ["The file is too large."] ]} 400)).
  - vm_compute. reflexivity.
  - reflexivity.
Defined.

(** An image, and the same image followed by a byte of padding. *)
Lemma response_depends_on_decoded_image_witness :
  response (post (ext := Mock.externals (Ok Mock.transparent_png)) Mock.serializer
                 (Mock.upload POST Mock.png_file) (Mock.world0 _)) =
  response (post (ext := Mock.externals (Ok Mock.transparent_png)) Mock.serializer
                 (Mock.upload POST Mock.padded_file) (Mock.world0 _)).
Proof.
  apply (response_depends_on_decoded_image
           (ext := Mock.externals (Ok Mock.transparent_png)) Mock.serializer
           (Mock.upload POST Mock.png_file) (Mock.upload POST Mock.padded_file)
           Mock.png_file Mock.padded_file (Mock.world0 _)).
  - split; vm_compute; reflexivity.
  - split; vm_compute; reflexivity.
  - reflexivity.
Defined.

(** * Where the code departs from the specification *)

(** C2.  The code at the failing input.  The upload is a valid image: it
    passes validation, decodes and re-encodes.  The removal function then
    raises an [UnidentifiedImageError], and the handler answers 400 with
    the message that the uploaded file is not a valid image, where the
    claim has a server error: the first [except] clause guards the whole
    [try] statement, not the decoding alone. *)
Theorem later_unidentified_error_is_400 :
  validated Mock.serializer (Mock.upload POST Mock.png_file) Mock.png_file ∧
  Mock.open Mock.png_file ∅ =
    (Ok {| Mock.img_format := Some "PNG"; Mock.img_pixel := xff |}, ∅) ∧
  response (post (ext := Mock.externals (Raise Mock.unidentified)) Mock.serializer
                 (Mock.upload POST Mock.png_file) (Mock.world0 _)) =
    Ok (Response {[ "error" := VStr "The uploaded file is not a valid image." ]} 400) ∧
  ¬ only_decode_failures_are_client_errors
      (ext := Mock.externals (Raise Mock.unidentified)) Mock.serializer.
Proof.
  split_and!; [split; vm_compute; reflexivity | reflexivity | vm_compute; reflexivity |].
  intros Hclaim.
  destruct (Hclaim (Mock.upload POST Mock.png_file) Mock.png_file
              {| Mock.img_format := Some "PNG"; Mock.img_pixel := xff |}
              ∅ Mock.unidentified (Mock.world0 _)) as (r & Hr & Hstatus).
  - split; vm_compute; reflexivity.
  - reflexivity.
  - vm_compute. reflexivity.
  - vm_compute in Hr. injection Hr as <-. discriminate Hstatus.
Qed.

(** C3.  The code at the failing input.  On a valid image the removal
    function raises an error, an [UnidentifiedImageError]; the answer is not
    the 500 with the fixed message and the text of the error as details,
    but a 400 without details. *)
Theorem removal_error_answered_400 :
  (∃ r, response (post (ext := Mock.externals (Raise Mock.unidentified)) Mock.serializer
                       (Mock.upload POST Mock.png_file) (Mock.world0 _)) = Ok r ∧
        status_code r = 400 ∧
        r ≠ processing_error Mock.unidentified) ∧
  ¬ removal_errors_are_server_errors
      (ext := Mock.externals (Raise Mock.unidentified)) Mock.serializer.
Proof.
  split; [eexists; split; [vm_compute; reflexivity | split; [reflexivity | discriminate]]|].
  intros Hclaim.
  specialize (Hclaim (Mock.upload POST Mock.png_file) Mock.png_file
                {| Mock.img_format := Some "PNG"; Mock.img_pixel := xff |}
                [x50; xff] Mock.unidentified (Mock.world0 _) ∅ ∅ ∅).
  assert (Hr : response (post (ext := Mock.externals (Raise Mock.unidentified))
                              Mock.serializer (Mock.upload POST Mock.png_file)
                              (Mock.world0 _)) =
               Ok (processing_error Mock.unidentified)).
  { apply Hclaim; [split; vm_compute; reflexivity | reflexivity ..]. }
  vm_compute in Hr. discriminate Hr.
Qed.

(** C7, as stated, fails.  A keyboard interrupt during the removal is not
    an [Exception]: neither [except] clause catches it and it leaves the
    handler.  So does the error of the parser when [request.data] is
    evaluated, before the [try] statement is reached. *)
Lemma non_exception_leaves_handler :
  response (post (ext := Mock.externals (Raise Mock.keyboard_interrupt)) Mock.serializer
                 (Mock.upload POST Mock.png_file) (Mock.world0 _)) =
    Raise Mock.keyboard_interrupt ∧
  response (post (ext := Mock.externals (Ok Mock.transparent_png)) Mock.serializer
                 (Mock.unparsable_request POST) (Mock.world0 _)) =
    Raise Mock.unsupported_media_type ∧
  ¬ handler_is_total (ext := Mock.externals (Raise Mock.keyboard_interrupt))
      Mock.serializer.
Proof.
  split_and!; [vm_compute; reflexivity | vm_compute; reflexivity |].
  intros Hclaim.
  destruct (Hclaim (Mock.upload POST Mock.png_file) (Mock.world0 _)) as (r & Hr & _).
  vm_compute in Hr. discriminate Hr.
Qed.


